(** * RecruitEM dispatcher: router, specialist agents and tool layer

    Shallow embedding of [orchestrator.py].  Python [str] values are
    sequences of 8-bit characters ([string]); [str.lower] and [str.strip]
    act on the ASCII range and leave every other character alone.
    Console tracing ([print]) is not part of the model.  What the program
    reads from outside (process environment, the text-generation service,
    the clock) is gathered in a [World] record that is passed explicitly. *)

From Stdlib Require Import Bool Arith Lia List Ascii String.
Import ListNotations.
Open Scope string_scope.

(** ** Python primitives *)

Module Py.

(** Exceptions the modelled code can meet.  All of them are instances
    of Python's [Exception]. *)
Inductive exn : Type :=
| KeyError (key : string)
| IndexError
| ServiceError (what : string).

Inductive result (A : Type) : Type :=
| Ok (a : A)
| Raise (e : exn).
Arguments Ok {A} a.
Arguments Raise {A} e.

Definition bind {A B} (m : result A) (k : A -> result B) : result B :=
  match m with
  | Ok a => k a
  | Raise e => Raise e
  end.

(** [try: body  except Exception: handler] *)
Definition try_except {A} (body : result A) (handler : exn -> result A)
  : result A :=
  match body with
  | Ok a => Ok a
  | Raise e => handler e
  end.

(** *** Dictionaries, in insertion order *)

Definition dict (V : Type) : Type := list (string * V).

Fixpoint lookup {V} (k : string) (d : dict V) : option V :=
  match d with
  | [] => None
  | (k', v) :: d' => if String.eqb k k' then Some v else lookup k d'
  end.

(** [k in d] *)
Definition mem {V} (k : string) (d : dict V) : bool :=
  match lookup k d with Some _ => true | None => false end.

(** [d.get(k, default)] *)
Definition get {V} (d : dict V) (k : string) (default : V) : V :=
  match lookup k d with Some v => v | None => default end.

(** [d[k]] *)
Definition subscript {V} (d : dict V) (k : string) : result V :=
  match lookup k d with Some v => Ok v | None => Raise (KeyError k) end.

(** *** Strings *)

Definition is_upper (c : ascii) : bool :=
  ((65 <=? nat_of_ascii c) && (nat_of_ascii c <=? 90))%nat.

Definition lower_ascii (c : ascii) : ascii :=
  if is_upper c then ascii_of_nat (nat_of_ascii c + 32) else c.

(** [s.lower()] *)
Fixpoint lower (s : string) : string :=
  match s with
  | EmptyString => EmptyString
  | String c s' => String (lower_ascii c) (lower s')
  end.

(** [needle in haystack] *)
Fixpoint contains (needle haystack : string) : bool :=
  if String.prefix needle haystack then true
  else match haystack with
       | EmptyString => false
       | String _ rest => contains needle rest
       end.

(** [s[:n]] for [n >= 0] *)
Fixpoint take (n : nat) (s : string) : string :=
  match n, s with
  | S n', String c s' => String c (take n' s')
  | _, _ => EmptyString
  end.

(** Python's whitespace in the ASCII range: TAB, LF, VT, FF, CR,
    FS, GS, RS, US and space. *)
Definition is_space (c : ascii) : bool :=
  let n := nat_of_ascii c in
  (((9 <=? n) && (n <=? 13)) || ((28 <=? n) && (n <=? 32)))%nat.

Fixpoint lstrip (s : string) : string :=
  match s with
  | EmptyString => EmptyString
  | String c s' => if is_space c then lstrip s' else s
  end.

Fixpoint rstrip (s : string) : string :=
  match s with
  | EmptyString => EmptyString
  | String c s' =>
      match rstrip s' with
      | EmptyString => if is_space c then EmptyString else String c EmptyString
      | r => String c r
      end
  end.

(** [s.strip()] *)
Definition strip (s : string) : string := rstrip (lstrip s).

(** Truthiness of an [Optional[str]], as in [if os.getenv(...)]. *)
Definition truthy (v : option string) : bool :=
  match v with
  | None => false
  | Some s => negb (String.eqb s "")
  end.

End Py.

Import Py.

Notation "x <- m ;; k" := (bind m (fun x => k))
  (at level 61, m at next level, right associativity).

Definition nl : string := String (ascii_of_nat 10) EmptyString.

(** The arrow U+2192 of the message templates, in UTF-8. *)
Definition arrow : string :=
  String (ascii_of_nat 226) (String (ascii_of_nat 134)
    (String (ascii_of_nat 146) EmptyString)).

(** ** Data *)

Definition TEST_LINKS : dict string :=
  [ ("Python Developer", "https://assess.example.com/python");
    ("Data Analyst", "https://assess.example.com/data");
    ("Frontend Developer", "https://assess.example.com/frontend");
    ("DevOps Engineer", "https://assess.example.com/devops");
    ("Product Manager", "https://assess.example.com/product") ].

Record JobPosting : Type := mkJob {
  title : string;
  description : string
}.

Definition JOB_DESCRIPTIONS : dict JobPosting :=
  [ ("J123", mkJob "Python Developer"
       "Python Developer role requiring FastAPI, async programming, REST APIs, PostgreSQL, and Docker. Must have 3+ years experience building scalable backend services.");
    ("J456", mkJob "Data Analyst"
       "Data Analyst role requiring SQL, Tableau, Python for data analysis, statistical modeling, and experience with data warehousing concepts.");
    ("J789", mkJob "Frontend Developer"
       "Frontend Developer role requiring React, TypeScript, modern CSS frameworks, and experience with responsive design and accessibility standards.");
    ("J101", mkJob "DevOps Engineer"
       "DevOps Engineer role requiring Kubernetes, CI/CD pipelines, AWS/Azure, Terraform, and strong Linux system administration skills.") ].

Definition INTERVIEW_TIPS_DB : dict string :=
  [ ("python", "Review async/await patterns and how to handle concurrent requests efficiently.");
    ("fastapi", "Understand dependency injection and how FastAPI uses Pydantic for validation.");
    ("sql", "Practice complex JOIN queries and understand indexing strategies for performance.");
    ("react", "Be ready to explain the virtual DOM, hooks lifecycle, and state management patterns.");
    ("kubernetes", "Know the difference between Deployments, StatefulSets, and DaemonSets.") ].

(** ** State *)

Record AgentState : Type := mkState {
  job_id : string;
  candidate_name : string;
  candidate_email : string;
  status : string;
  job_title : string;
  job_description : string;
  output_message : string;
  metadata : dict string
}.

Definition set_output_message (st : AgentState) (m : string) : AgentState :=
  mkState (job_id st) (candidate_name st) (candidate_email st) (status st)
          (job_title st) (job_description st) m (metadata st).

Definition set_metadata (st : AgentState) (md : dict string) : AgentState :=
  mkState (job_id st) (candidate_name st) (candidate_email st) (status st)
          (job_title st) (job_description st) (output_message st) md.

(** ** The outside world *)

(** One content block of a reply of the text-generation service. *)
Record ContentBlock : Type := mkBlock { text : string }.

Record World : Type := mkWorld {
  (** [os.environ] *)
  environ : dict string;
  (** Importing the client, building it with the given [api_key] and
      calling [messages.create] on the given prompt: a reply's content
      blocks, or an exception. *)
  messages_create : option string -> string -> result (list ContentBlock);
  (** [datetime.now().isoformat()] *)
  now_isoformat : string
}.

Definition getenv (w : World) (name : string) : option string :=
  lookup name (environ w).

(** ** Tools *)

Definition GENERAL_LINK : string := "https://assess.example.com/general".

Definition get_test_link (role : string) : string :=
  get TEST_LINKS role GENERAL_LINK.

Definition NO_TIPS_FOUND : string :=
  "No specific tips found. General advice: Review the job description carefully and prepare examples from your past experience.".

(** The loop of [rag_search] over [INTERVIEW_TIPS_DB.items()]. *)
Fixpoint search_tips (items : dict string) (query_lower : string) : string :=
  match items with
  | [] => NO_TIPS_FOUND
  | (keyword, tip) :: items' =>
      if contains keyword query_lower then tip
      else search_tips items' query_lower
  end.

Definition rag_search (query : string) : result string :=
  if mem query JOB_DESCRIPTIONS then
    jd <- subscript JOB_DESCRIPTIONS query ;;
    Ok (title jd ++ ": " ++ take 150 (description jd) ++ "...")
  else
    Ok (search_tips INTERVIEW_TIPS_DB (lower query)).

Definition API_KEY_NAME : string := "ANTHROPIC_API_KEY".

Definition prompt_of (job_description : string) : string :=
  "Based on this job description, give ONE specific, high-impact tip to help a candidate prepare for their interview. Keep it under 50 words."
  ++ nl ++ nl ++ "Job Description: " ++ job_description
  ++ nl ++ nl ++ "Tip:".

Definition KEYWORDS : list string :=
  ["python"; "sql"; "react"; "kubernetes"; "fastapi"].

Definition REVIEW_CORE : string := "Review the core concepts for this role.".

Definition GENERIC_TIP : string :=
  "Study the job requirements and prepare concrete examples from your experience.".

(** The loop of [generate_prep_tip] over the keyword list. *)
Fixpoint scan_keywords (keywords : list string) (job_description : string)
  : string :=
  match keywords with
  | [] => GENERIC_TIP
  | keyword :: keywords' =>
      if contains keyword (lower job_description)
      then get INTERVIEW_TIPS_DB keyword REVIEW_CORE
      else scan_keywords keywords' job_description
  end.

(** The body of the [try] block: the first content block's text, stripped. *)
Definition ask_claude (w : World) (job_description : string) : result string :=
  message <- messages_create w (getenv w API_KEY_NAME) (prompt_of job_description) ;;
  match message with
  | [] => Raise IndexError
  | block :: _ => Ok (strip (text block))
  end.

(** The guard of the external tier. *)
Definition external_tier_taken (w : World) (use_claude : bool) : bool :=
  use_claude && truthy (getenv w API_KEY_NAME).

Definition generate_prep_tip (w : World) (job_description : string)
           (use_claude : bool) : result string :=
  let fallback := Ok (scan_keywords KEYWORDS job_description) in
  if external_tier_taken w use_claude then
    try_except (ask_claude w job_description) (fun _ => fallback)
  else fallback.

(** ** Agents *)

Definition router_agent (state : AgentState) : string :=
  if String.eqb (lower (status state)) "assessment"
  then "assessment"
  else "interview".

Definition assessment_message (name job link : string) : string :=
  "Hi " ++ name ++ "!" ++ nl ++ nl
  ++ "Great news! You've been selected to move forward with the " ++ job
  ++ " position." ++ nl ++ nl
  ++ "Next Step: Please complete your technical assessment at your earliest convenience."
  ++ nl ++ nl
  ++ arrow ++ " Assessment Link: " ++ link ++ nl
  ++ arrow ++ " Time Limit: 60 minutes" ++ nl
  ++ arrow ++ " Tip: Review the job description before starting" ++ nl ++ nl
  ++ "Best of luck!" ++ nl
  ++ "RecruitEM Team".

Definition assessment_agent (w : World) (state : AgentState) : AgentState :=
  let test_link := get_test_link (job_title state) in
  let message :=
    assessment_message (candidate_name state) (job_title state) test_link in
  let state := set_output_message state message in
  set_metadata state
    [ ("agent", "assessment");
      ("test_link", test_link);
      ("timestamp", now_isoformat w) ].

Definition interview_message (name job prep_tip jd_snippet : string) : string :=
  "Hi " ++ name ++ "!" ++ nl ++ nl
  ++ "Congratulations on reaching the interview stage for " ++ job ++ "!"
  ++ nl ++ nl
  ++ arrow
  ++ " Your interview is coming up soon. Here's a personalized tip to help you prepare:"
  ++ nl ++ nl
  ++ arrow ++ " Key Focus Area:" ++ nl
  ++ prep_tip ++ nl ++ nl
  ++ arrow ++ " Role Context:" ++ nl
  ++ jd_snippet ++ nl ++ nl
  ++ "Remember: Prepare specific examples from your experience that demonstrate these skills."
  ++ nl ++ nl
  ++ "You've got this!" ++ nl
  ++ "RecruitEM Team".

Definition interview_agent (w : World) (state : AgentState)
           (use_claude : bool) : result AgentState :=
  jd_snippet <- rag_search (job_id state) ;;
  prep_tip <- generate_prep_tip w (job_description state) use_claude ;;
  let message :=
    interview_message (candidate_name state) (job_title state)
                      prep_tip jd_snippet in
  let state := set_output_message state message in
  Ok (set_metadata state
        [ ("agent", "interview");
          ("prep_tip", prep_tip);
          ("timestamp", now_isoformat w) ]).

(** ** Orchestrator *)

Definition GENERIC_TITLE : string := "Software Engineer".

Definition GENERIC_DESCRIPTION : string :=
  "Software engineering role requiring technical expertise.".

(** Step 1 of [orchestrate]: job lookup and the fresh state. *)
Definition initial_state (candidate_name candidate_email status job_id : string)
  : result AgentState :=
  job <- (if negb (mem job_id JOB_DESCRIPTIONS)
          then Ok (GENERIC_TITLE, GENERIC_DESCRIPTION)
          else job_info <- subscript JOB_DESCRIPTIONS job_id ;;
               Ok (title job_info, description job_info)) ;;
  Ok (mkState job_id candidate_name candidate_email status
              (fst job) (snd job) "" []).

(** Steps 1 to 3 of [orchestrate]: the state the selected agent leaves. *)
Definition orchestrate_state (w : World)
           (candidate_name candidate_email status job_id : string)
           (use_claude : bool) : result AgentState :=
  state <- initial_state candidate_name candidate_email status job_id ;;
  let next_agent := router_agent state in
  if String.eqb next_agent "assessment"
  then Ok (assessment_agent w state)
  else interview_agent w state use_claude.

(** [orchestrate]; step 4 reads [state['metadata']['agent']] for its trace
    and returns the message. *)
Definition orchestrate (w : World)
           (candidate_name candidate_email status job_id : string)
           (use_claude : bool) : result string :=
  state <- orchestrate_state w candidate_name candidate_email status job_id
                             use_claude ;;
  _ <- subscript (metadata state) "agent" ;;
  Ok (output_message state).

(** ** The test script *)

(** The loop of [test_different_jobs] in [test.py]: one dispatch per job
    and, for each, whether the expected title occurs in the message (the
    script prints OK or FAIL accordingly). *)
Fixpoint check_titles (w : World) (jobs : list (string * string))
  : result (list bool) :=
  match jobs with
  | [] => Ok []
  | (job_id, expected_title) :: jobs' =>
      message <- orchestrate w "Test Candidate" "test@example.com"
                             "Assessment" job_id false ;;
      verdicts <- check_titles w jobs' ;;
      Ok (contains expected_title message :: verdicts)
  end.

Definition test_different_jobs (w : World) : result (list bool) :=
  check_titles w [ ("J123", "Python Developer");
                   ("J456", "Data Analyst");
                   ("J789", "Frontend Developer") ].

(** ** Worlds used in the examples *)

(** No credential in the environment; the service is unreachable. *)
Definition offline : World :=
  mkWorld [] (fun _ _ => Raise (ServiceError "unreachable"))
          "2024-12-01T10:00:00".

(** A credential is configured and the service answers every prompt with
    one block holding the given text. *)
Definition answering (reply : string) : World :=
  mkWorld [(API_KEY_NAME, "sk-test")]
          (fun _ _ => Ok [mkBlock reply])
          "2024-12-01T10:00:00".

(** [offline] at a later time. *)
Definition offline_later : World :=
  mkWorld [] (fun _ _ => Raise (ServiceError "unreachable"))
          "2025-01-15T08:30:00".

(** A credential is configured and the service answers with no content
    block at all. *)
Definition answering_nothing : World :=
  mkWorld [(API_KEY_NAME, "sk-test")] (fun _ _ => Ok [])
          "2024-12-01T10:00:00".

(** ** Reference notions the statements are compared with *)

(** Two characters are equal up to ASCII letter case. *)
Definition char_eq_nocase (c d : ascii) : bool :=
  Ascii.eqb c d
  || (is_upper c && (nat_of_ascii c + 32 =? nat_of_ascii d)%nat)
  || (is_upper d && (nat_of_ascii d + 32 =? nat_of_ascii c)%nat).

(** Two strings have the same length and agree character by character up
    to letter case. *)
Fixpoint eq_nocase (s t : string) : bool :=
  match s, t with
  | EmptyString, EmptyString => true
  | String c s', String d t' => char_eq_nocase c d && eq_nocase s' t'
  | _, _ => false
  end.

Fixpoint no_upper (s : string) : bool :=
  match s with
  | EmptyString => true
  | String c s' => negb (is_upper c) && no_upper s'
  end.

(** Truncation as the specification words it: the marker is appended only
    to a description longer than the cap, a shorter one is left as it is. *)
Definition truncate_marked (cap : nat) (s : string) : string :=
  if (cap <? String.length s)%nat then take cap s ++ "..." else s.

(** The fields of the request that the agents only read. *)
Definition same_request (st st' : AgentState) : Prop :=
  job_id st' = job_id st
  /\ candidate_name st' = candidate_name st
  /\ candidate_email st' = candidate_email st
  /\ status st' = status st
  /\ job_title st' = job_title st
  /\ job_description st' = job_description st.

(** The posting that step 1 of [orchestrate] settles on: the catalog's
    entry, or the generic title and description. *)
Definition resolve_job (job_id : string) : JobPosting :=
  match lookup job_id JOB_DESCRIPTIONS with
  | Some job_info => job_info
  | None => mkJob GENERIC_TITLE GENERIC_DESCRIPTION
  end.

(** * Properties *)

(** ** Strings and dictionaries *)

Section StringFacts.

Lemma is_upper_bounds (c : ascii) :
  is_upper c = true <-> 65 <= nat_of_ascii c <= 90.
Proof.
  unfold is_upper. rewrite andb_true_iff, !Nat.leb_le. tauto.
Qed.

Lemma lower_ascii_char_eq_nocase (c d : ascii) :
  is_upper d = false ->
  (lower_ascii c = d <-> char_eq_nocase c d = true).
Proof.
  intros Hd. unfold lower_ascii, char_eq_nocase. rewrite Hd.
  rewrite andb_false_l, orb_false_r.
  destruct (is_upper c) eqn:Hc.
  - apply is_upper_bounds in Hc. rewrite andb_true_l. split.
    + intros <-. rewrite nat_ascii_embedding by lia.
      rewrite Nat.eqb_refl. apply orb_true_r.
    + rewrite orb_true_iff, Ascii.eqb_eq, Nat.eqb_eq. intros [-> | E].
      * apply is_upper_bounds in Hc. congruence.
      * rewrite E. apply ascii_nat_embedding.
  - rewrite andb_false_l, orb_false_r. symmetry. apply Ascii.eqb_eq.
Qed.

Lemma lower_eq_nocase (t : string) :
  no_upper t = true ->
  forall s, lower s = t <-> eq_nocase s t = true.
Proof.
  induction t as [|d t IH]; intros Ht s.
  - destruct s; simpl; split; congruence.
  - simpl in Ht. apply andb_true_iff in Ht as [Hd Ht].
    apply negb_true_iff in Hd.
    destruct s as [|c s]; simpl; [split; congruence|].
    rewrite andb_true_iff, <- (IH Ht s),
      <- (lower_ascii_char_eq_nocase c d Hd).
    split; [intros E; inversion E; auto | intros [-> ->]; reflexivity].
Qed.

Lemma prefix_app (n b : string) : String.prefix n (n ++ b) = true.
Proof.
  induction n as [|c n IH]; simpl.
  - destruct b; reflexivity.
  - destruct (ascii_dec c c); [exact IH | congruence].
Qed.

Lemma contains_prefix (n h : string) :
  String.prefix n h = true -> contains n h = true.
Proof.
  intros H. destruct h; cbn [contains]; rewrite H; reflexivity.
Qed.

(** A string occurs in every string built around it. *)
Lemma contains_app (n a b : string) : contains n (a ++ n ++ b) = true.
Proof.
  induction a as [|c a IH].
  - cbn [append]. apply contains_prefix, prefix_app.
  - cbn [append contains].
    destruct (String.prefix n (String c (a ++ n ++ b))); auto.
Qed.

Lemma take_all (n : nat) (s : string) :
  String.length s <= n -> take n s = s.
Proof.
  revert n. induction s as [|c s IH]; intros [|n] H; simpl in *;
    try reflexivity; try lia.
  f_equal. apply IH. lia.
Qed.

Lemma take_length (n : nat) (s : string) :
  String.length (take n s) = Nat.min n (String.length s).
Proof.
  revert n. induction s as [|c s IH]; intros [|n]; simpl; auto.
Qed.

Lemma take_prefix (n : nat) (s : string) :
  String.prefix (take n s) s = true.
Proof.
  revert n. induction s as [|c s IH]; intros [|n]; simpl; auto.
  destruct (ascii_dec c c); [apply IH | congruence].
Qed.

Lemma mem_false_lookup {V} (k : string) (d : dict V) :
  mem k d = false <-> lookup k d = None.
Proof.
  unfold mem. destruct (lookup k d); split; congruence.
Qed.

Lemma contains_skip (n a h : string) :
  contains n h = true -> contains n (a ++ h) = true.
Proof.
  intros H. induction a as [|c a IH]; cbn [append contains].
  - exact H.
  - destruct (String.prefix n (String c (a ++ h))); auto.
Qed.

Lemma contains_here (n b : string) : contains n (n ++ b) = true.
Proof. apply contains_prefix, prefix_app. Qed.

Lemma string_app_assoc (a b c : string) : (a ++ b) ++ c = a ++ b ++ c.
Proof.
  induction a as [|x a IH]; simpl; [reflexivity | rewrite IH; reflexivity].
Qed.

(** The needle sits inside one piece of a concatenation. *)
Lemma contains_inside (n p q b : string) :
  contains n ((p ++ n ++ q) ++ b) = true.
Proof. rewrite !string_app_assoc. apply contains_app. Qed.

End StringFacts.

(** ** Router *)

Section Router.

(** C3.  The router answers "assessment" exactly for the statuses that
    equal the literal "assessment" up to letter case and "interview" for
    every other status, among them the empty string, "Interview",
    "INTERVIEW" and "offer"; it is total and has these two outcomes
    only. *)
Theorem router_agent_two_way (st : AgentState) :
  (router_agent st = "assessment"
     <-> eq_nocase (status st) "assessment" = true)
  /\ (router_agent st = "interview"
     <-> eq_nocase (status st) "assessment" = false)
  /\ (router_agent st = "assessment" \/ router_agent st = "interview")
  /\ (In (status st) [""; "Interview"; "INTERVIEW"; "offer"]
     -> router_agent st = "interview").
Proof.
  assert (Hl : lower (status st) = "assessment"
               <-> eq_nocase (status st) "assessment" = true)
    by (apply lower_eq_nocase; reflexivity).
  unfold router_agent.
  destruct (String.eqb (lower (status st)) "assessment") eqn:E.
  - apply String.eqb_eq in E. apply Hl in E. rewrite E.
    repeat split; auto; try discriminate.
    intros H. simpl in H.
    destruct H as [H|[H|[H|[H|[]]]]]; rewrite <- H in E; discriminate.
  - apply String.eqb_neq in E.
    assert (Hf : eq_nocase (status st) "assessment" = false)
      by (destruct (eq_nocase (status st) "assessment"); tauto).
    rewrite Hf. repeat split; auto; discriminate.
Qed.

End Router.

(** ** Tip generation *)

Section TipGeneration.

Lemma generate_prep_tip_fallback (w : World) (d : string) (use_claude : bool) :
  external_tier_taken w use_claude = false ->
  generate_prep_tip w d use_claude = Ok (scan_keywords KEYWORDS d).
Proof.
  unfold generate_prep_tip. intros ->. reflexivity.
Qed.

Lemma scan_keywords_cases (d : string) :
  scan_keywords KEYWORDS d = GENERIC_TIP
  \/ exists keyword,
      In keyword KEYWORDS
      /\ contains keyword (lower d) = true
      /\ lookup keyword INTERVIEW_TIPS_DB = Some (scan_keywords KEYWORDS d).
Proof.
  unfold KEYWORDS. cbn [scan_keywords].
  repeat match goal with
         | |- context [if contains ?k (lower d) then _ else _] =>
             destruct (contains k (lower d)) eqn:?;
             [right; exists k; repeat split;
              [simpl; tauto | assumption] |]
         end.
  left; reflexivity.
Qed.



(** C1, as the code has it.  For status "Interview", job "J456" and no
    credential configured, the tip is the corpus entry of "python": the
    description of "J456" holds both "SQL" and "Python", and "python"
    comes first in the keyword list. *)
Theorem scenario_D_tip_is_python (w : World) (name email : string)
        (use_claude : bool) :
  truthy (getenv w API_KEY_NAME) = false ->
  exists jd python_tip st,
    lookup "J456" JOB_DESCRIPTIONS = Some jd
    /\ contains "SQL" (description jd) = true
    /\ contains "Python" (description jd) = true
    /\ KEYWORDS = ["python"; "sql"; "react"; "kubernetes"; "fastapi"]
    /\ lookup "python" INTERVIEW_TIPS_DB = Some python_tip
    /\ generate_prep_tip w (description jd) use_claude = Ok python_tip
    /\ orchestrate_state w name email "Interview" "J456" use_claude = Ok st
    /\ lookup "agent" (metadata st) = Some "interview"
    /\ lookup "prep_tip" (metadata st) = Some python_tip.
Proof.
  intros Hkey.
  assert (Hx : external_tier_taken w use_claude = false)
    by (unfold external_tier_taken; rewrite Hkey; apply andb_false_r).
  eexists; eexists; eexists.
  split; [reflexivity|].
  split; [reflexivity|]. split; [reflexivity|].
  split; [reflexivity|]. split; [reflexivity|].
  split; [rewrite (generate_prep_tip_fallback _ _ _ Hx); reflexivity|].
  unfold orchestrate_state, interview_agent. cbn [initial_state bind mem lookup String.eqb Ascii.eqb Bool.eqb negb subscript JOB_DESCRIPTIONS fst snd title description router_agent status job_id job_description].
  rewrite (generate_prep_tip_fallback _ _ _ Hx).
  split; [reflexivity|]. split; reflexivity.
Qed.

Lemma scenario_D_tip_is_python_witness :
  truthy (getenv offline API_KEY_NAME) = false
  /\ exists st,
      orchestrate_state offline "Sarah Johnson" "sarah@example.com"
                        "Interview" "J456" false = Ok st
      /\ lookup "prep_tip" (metadata st)
         = Some "Review async/await patterns and how to handle concurrent requests efficiently.".
Proof.
  split; [reflexivity|].
  destruct (scenario_D_tip_is_python offline "Sarah Johnson"
              "sarah@example.com" false eq_refl)
    as (jd & tip & st & _ & _ & _ & _ & Hp & _ & Hst & _ & Hmd).
  exists st. split; [exact Hst|].
  rewrite Hmd. f_equal. simpl in Hp. congruence.
Defined.

(** C1, as stated, fails: with no credential the tip of job "J456" is
    not the corpus entry of "sql". *)
Lemma scenario_D_tip_is_not_sql :
  exists jd sql_tip st,
    lookup "J456" JOB_DESCRIPTIONS = Some jd
    /\ contains "SQL" (description jd) = true
    /\ getenv offline API_KEY_NAME = None
    /\ lookup "sql" INTERVIEW_TIPS_DB = Some sql_tip
    /\ generate_prep_tip offline (description jd) false <> Ok sql_tip
    /\ orchestrate_state offline "Sarah Johnson" "sarah@example.com"
                         "Interview" "J456" false = Ok st
    /\ lookup "prep_tip" (metadata st) <> Some sql_tip.
Proof.
  eexists; eexists; eexists.
  split; [reflexivity|]. split; [reflexivity|]. split; [reflexivity|].
  split; [reflexivity|]. split; [vm_compute; discriminate|].
  split; [reflexivity|]. vm_compute; discriminate.
Qed.

Lemma generate_prep_tip_ok (w : World) (d : string) (use_claude : bool) :
  exists tip, generate_prep_tip w d use_claude = Ok tip.
Proof.
  unfold generate_prep_tip, try_except.
  destruct (external_tier_taken w use_claude); [|eauto].
  destruct (ask_claude w d); eauto.
Qed.



(** C7.  When the external tier is not taken, the tip depends on the job
    description only: not on the world (environment, service, clock), the
    flag or earlier calls. *)
Theorem generate_prep_tip_deterministic (w1 w2 : World) (d : string)
        (flag1 flag2 : bool) :
  external_tier_taken w1 flag1 = false ->
  external_tier_taken w2 flag2 = false ->
  generate_prep_tip w1 d flag1 = generate_prep_tip w2 d flag2
  /\ generate_prep_tip w1 d flag1 = Ok (scan_keywords KEYWORDS d).
Proof.
  intros H1 H2.
  rewrite (generate_prep_tip_fallback w1 d flag1 H1),
          (generate_prep_tip_fallback w2 d flag2 H2).
  split; reflexivity.
Qed.

Lemma generate_prep_tip_deterministic_witness :
  external_tier_taken offline true = false
  /\ external_tier_taken (answering "Know your tools.") false = false
  /\ generate_prep_tip offline GENERIC_DESCRIPTION true
  = generate_prep_tip (answering "Know your tools.") GENERIC_DESCRIPTION false
  /\ generate_prep_tip offline GENERIC_DESCRIPTION true
     = Ok (scan_keywords KEYWORDS GENERIC_DESCRIPTION).
Proof.
  split; [reflexivity|]. split; [reflexivity|].
  apply (generate_prep_tip_deterministic offline
           (answering "Know your tools.") GENERIC_DESCRIPTION true false);
    reflexivity.
Defined.

(** C9.  Every keyword of the keyword tier has an entry in the tip
    corpus, so the lookup's default is never returned: whatever the
    description, the keyword tier gives the generic message or the corpus
    entry of a keyword of the list, and never the missing-entry
    message. *)
Theorem keywords_all_in_corpus :
  Forall (fun keyword =>
            exists tip,
              lookup keyword INTERVIEW_TIPS_DB = Some tip
              /\ get INTERVIEW_TIPS_DB keyword REVIEW_CORE = tip
              /\ tip <> REVIEW_CORE) KEYWORDS
  /\ forall d,
      scan_keywords KEYWORDS d <> REVIEW_CORE
      /\ (scan_keywords KEYWORDS d = GENERIC_TIP
          \/ exists keyword,
              In keyword KEYWORDS
              /\ contains keyword (lower d) = true
              /\ lookup keyword INTERVIEW_TIPS_DB
                 = Some (scan_keywords KEYWORDS d)).
Proof.
  split.
  - repeat constructor; eexists; (split; [reflexivity|]);
      (split; [reflexivity | discriminate]).
  - intros d. split; [|apply scan_keywords_cases].
    unfold KEYWORDS. cbn [scan_keywords].
    repeat match goal with
           | |- context [if contains ?k (lower d) then _ else _] =>
               destruct (contains k (lower d)); [discriminate|]
           end.
    discriminate.
Qed.

End TipGeneration.

(** ** Context retrieval *)

Section ContextRetrieval.

Lemma rag_search_ok (query : string) : exists snippet, rag_search query = Ok snippet.
Proof.
  unfold rag_search, mem, subscript.
  destruct (lookup query JOB_DESCRIPTIONS); simpl; eauto.
Qed.

(** C2, as the code has it.  For a known job id the snippet is the title,
    a colon, the first 150 characters of the description and the marker
    "...": the marker is appended whatever the length, and a description
    of 150 characters or fewer is kept whole in front of it. *)
Theorem rag_search_known_job (query : string) (jd : JobPosting) :
  lookup query JOB_DESCRIPTIONS = Some jd ->
  rag_search query
  = Ok (title jd ++ ": " ++ take 150 (description jd) ++ "...")
  /\ String.prefix (take 150 (description jd)) (description jd) = true
  /\ String.length (take 150 (description jd))
     = Nat.min 150 (String.length (description jd))
  /\ (String.length (description jd) <= 150 ->
      take 150 (description jd) = description jd).
Proof.
  intros H. unfold rag_search, mem, subscript. rewrite H.
  split; [reflexivity|].
  split; [apply take_prefix|].
  split; [apply take_length | apply take_all].
Qed.

Lemma rag_search_known_job_witness :
  exists jd,
    lookup "J123" JOB_DESCRIPTIONS = Some jd
    /\ rag_search "J123"
       = Ok (title jd ++ ": " ++ take 150 (description jd) ++ "...")
    /\ String.length (description jd) = 160
    /\ String.length (take 150 (description jd)) = 150.
Proof.
  eexists. split; [reflexivity|].
  destruct (rag_search_known_job "J123" _ eq_refl) as (E & _ & L & _).
  split; [exact E|]. split; [reflexivity | exact L].
Defined.

(** C2, as stated, fails: the description of "J456" has 136 characters
    and still gets the marker. *)
Lemma rag_search_marks_short_description :
  exists jd,
    lookup "J456" JOB_DESCRIPTIONS = Some jd
    /\ String.length (description jd) = 136
    /\ truncate_marked 150 (description jd) = description jd
    /\ rag_search "J456" = Ok (title jd ++ ": " ++ description jd ++ "...")
    /\ rag_search "J456"
       <> Ok (title jd ++ ": " ++ truncate_marked 150 (description jd)).
Proof.
  eexists. split; [reflexivity|]. split; [reflexivity|].
  split; [reflexivity|]. split; [reflexivity|].
  vm_compute. intros E. inversion E.
Qed.

End ContextRetrieval.

(** ** Agents *)

Section Agents.

Ltac find_piece :=
  repeat first [ apply contains_here | apply contains_skip ].

Lemma get_test_link_cases (role : string) :
  (forall url, lookup role TEST_LINKS = Some url -> get_test_link role = url)
  /\ (lookup role TEST_LINKS = None -> get_test_link role = GENERAL_LINK).
Proof.
  unfold get_test_link, get.
  destruct (lookup role TEST_LINKS); split; congruence.
Qed.

Lemma assessment_message_link (name job link : string) :
  contains link (assessment_message name job link) = true.
Proof. unfold assessment_message. find_piece. Qed.

(** C6.  The assessment agent is total.  Its link is the one mapped to
    the job title, or the generic link when the title has none; its
    message is the template filled with the candidate name, the job
    title, that link and the 60-minute limit; its metadata record the
    agent, the link and the timestamp. *)
Theorem assessment_agent_renders (w : World) (st : AgentState) :
  exists link,
    link = get_test_link (job_title st)
    /\ (forall url, lookup (job_title st) TEST_LINKS = Some url -> link = url)
    /\ (lookup (job_title st) TEST_LINKS = None -> link = GENERAL_LINK)
    /\ output_message (assessment_agent w st)
       = assessment_message (candidate_name st) (job_title st) link
    /\ contains (candidate_name st)
                (output_message (assessment_agent w st)) = true
    /\ contains (job_title st)
                (output_message (assessment_agent w st)) = true
    /\ contains link (output_message (assessment_agent w st)) = true
    /\ contains "Time Limit: 60 minutes"
                (output_message (assessment_agent w st)) = true
    /\ metadata (assessment_agent w st)
       = [ ("agent", "assessment");
           ("test_link", link);
           ("timestamp", now_isoformat w) ].
Proof.
  exists (get_test_link (job_title st)).
  destruct (get_test_link_cases (job_title st)) as [Hmapped Hgeneric].
  repeat split; try assumption;
    cbn [assessment_agent output_message set_output_message set_metadata];
    unfold assessment_message.
  - find_piece.
  - find_piece.
  - find_piece.
  - repeat first [ apply (contains_inside "Time Limit: 60 minutes" " " "")
                 | apply contains_skip ].
Qed.

Lemma interview_agent_ok (w : World) (st : AgentState) (use_claude : bool) :
  exists jd_snippet prep_tip,
    rag_search (job_id st) = Ok jd_snippet
    /\ generate_prep_tip w (job_description st) use_claude = Ok prep_tip
    /\ interview_agent w st use_claude
       = Ok (mkState (job_id st) (candidate_name st) (candidate_email st)
                     (status st) (job_title st) (job_description st)
                     (interview_message (candidate_name st) (job_title st)
                                        prep_tip jd_snippet)
                     [ ("agent", "interview");
                       ("prep_tip", prep_tip);
                       ("timestamp", now_isoformat w) ]).
Proof.
  destruct (rag_search_ok (job_id st)) as [snippet Hs].
  destruct (generate_prep_tip_ok w (job_description st) use_claude)
    as [tip Ht].
  exists snippet, tip. unfold interview_agent.
  rewrite Hs, Ht. repeat split.
Qed.

(** C8.  Both agents write [output_message] and [metadata] only: the
    job id, the candidate's name and email, the status, the job title and
    the job description come out as they went in. *)
Theorem agents_keep_request (w : World) (st : AgentState)
        (use_claude : bool) :
  same_request st (assessment_agent w st)
  /\ exists st',
      interview_agent w st use_claude = Ok st' /\ same_request st st'.
Proof.
  split.
  - repeat split.
  - destruct (interview_agent_ok w st use_claude) as (s & t & _ & _ & E).
    rewrite E. eexists. split; [reflexivity | repeat split].
Qed.

End Agents.

(** ** Orchestrator *)

Section Orchestrator.

Variable w : World.
Variables name email : string.

Lemma initial_state_unknown (s job : string) :
  lookup job JOB_DESCRIPTIONS = None ->
  initial_state name email s job
  = Ok (mkState job name email s GENERIC_TITLE GENERIC_DESCRIPTION "" []).
Proof.
  intros H. apply mem_false_lookup in H.
  unfold initial_state. rewrite H. reflexivity.
Qed.

Lemma initial_state_known (s job : string) (jd : JobPosting) :
  lookup job JOB_DESCRIPTIONS = Some jd ->
  initial_state name email s job
  = Ok (mkState job name email s (title jd) (description jd) "" []).
Proof.
  intros H. unfold initial_state, mem, subscript. rewrite H. reflexivity.
Qed.

(** Every fresh state has a title and a description, from the catalog or
    from the generic defaults. *)
Lemma initial_state_resolved (s job : string) :
  exists st0,
    initial_state name email s job = Ok st0
    /\ job_title st0 <> "" /\ job_description st0 <> "".
Proof.
  destruct (lookup job JOB_DESCRIPTIONS) as [jd|] eqn:H.
  - rewrite (initial_state_known s job jd H). eexists.
    split; [reflexivity|]. cbn [job_title job_description].
    revert H. unfold JOB_DESCRIPTIONS. cbn [lookup].
    repeat match goal with
           | |- context [String.eqb job ?k] => destruct (String.eqb job k)
           end;
      intros E; inversion E; split; discriminate.
  - rewrite (initial_state_unknown s job H). eexists.
    split; [reflexivity|]. split; discriminate.
Qed.

(** Whatever agent runs, the request fields of the fresh state survive
    and the trace's read of the agent name succeeds. *)
Lemma dispatch_from (st0 : AgentState) (use_claude : bool) :
  exists st,
    (if String.eqb (router_agent st0) "assessment"
     then Ok (assessment_agent w st0)
     else interview_agent w st0 use_claude) = Ok st
    /\ same_request st0 st
    /\ exists agent, lookup "agent" (metadata st) = Some agent.
Proof.
  destruct (String.eqb (router_agent st0) "assessment").
  - eexists. split; [reflexivity|]. split; [repeat split|].
    eexists; reflexivity.
  - destruct (interview_agent_ok w st0 use_claude) as (sn & t & _ & _ & E).
    rewrite E. eexists. split; [reflexivity|]. split; [repeat split|].
    eexists; reflexivity.
Qed.

(** C5.  For a job id that the catalog does not hold, the fresh state
    has the generic title and the generic description, neither of them
    empty; the selected agent keeps them, and the dispatch returns a
    message without raising. *)
Theorem unknown_job_generic_defaults (s job : string) (use_claude : bool) :
  lookup job JOB_DESCRIPTIONS = None ->
  exists st0 st message,
    initial_state name email s job = Ok st0
    /\ job_title st0 = GENERIC_TITLE
    /\ job_description st0 = GENERIC_DESCRIPTION
    /\ orchestrate_state w name email s job use_claude = Ok st
    /\ job_title st = GENERIC_TITLE
    /\ job_description st = GENERIC_DESCRIPTION
    /\ job_title st <> ""
    /\ job_description st <> ""
    /\ orchestrate w name email s job use_claude = Ok message.
Proof.
  intros H. pose proof (initial_state_unknown s job H) as E0.
  unfold orchestrate, orchestrate_state. rewrite E0. cbn [bind].
  match goal with
  | |- context [router_agent ?x] =>
      destruct (dispatch_from x use_claude)
        as (st & Est & (_ & _ & _ & _ & Ht & Hd) & agent & Ha)
  end.
  cbn [job_title job_description] in Ht, Hd.
  rewrite Est. cbn [bind]. unfold subscript. rewrite Ha. cbn [bind].
  eexists; exists st; eexists.
  split; [reflexivity|]. split; [reflexivity|]. split; [reflexivity|].
  split; [reflexivity|]. split; [exact Ht|]. split; [exact Hd|].
  rewrite Ht, Hd. repeat split; discriminate.
Qed.

(** C10.  For a job id that the catalog does not hold and a status that
    the router sends to the assessment agent, the message holds the
    generic assessment link: the generic title "Software Engineer" has no
    entry in the link map. *)
Theorem unknown_job_assessment_general_link (s job : string)
        (use_claude : bool) :
  lookup job JOB_DESCRIPTIONS = None ->
  router_agent (mkState job name email s GENERIC_TITLE GENERIC_DESCRIPTION
                        "" []) = "assessment" ->
  lookup GENERIC_TITLE TEST_LINKS = None
  /\ exists st message,
      orchestrate_state w name email s job use_claude = Ok st
      /\ lookup "agent" (metadata st) = Some "assessment"
      /\ lookup "test_link" (metadata st) = Some GENERAL_LINK
      /\ orchestrate w name email s job use_claude = Ok message
      /\ message = output_message st
      /\ contains GENERAL_LINK message = true.
Proof.
  intros H Hr. split; [reflexivity|].
  unfold orchestrate, orchestrate_state.
  rewrite (initial_state_unknown s job H). cbn [bind]. rewrite Hr.
  cbn [String.eqb Ascii.eqb Bool.eqb].
  eexists; eexists. split; [reflexivity|].
  split; [reflexivity|]. split; [reflexivity|].
  split; [reflexivity|]. split; [reflexivity|].
  apply (assessment_message_link name GENERIC_TITLE GENERAL_LINK).
Qed.

End Orchestrator.

Lemma unknown_job_generic_defaults_witness :
  lookup "UNKNOWN" JOB_DESCRIPTIONS = None
  /\ exists message,
      orchestrate offline "Bob Smith" "bob@example.com" "Interview" "UNKNOWN"
                  false = Ok message.
Proof.
  split; [reflexivity|].
  destruct (unknown_job_generic_defaults offline "Bob Smith"
              "bob@example.com" "Interview" "UNKNOWN" false eq_refl)
    as (st0 & st & message & _ & _ & _ & _ & _ & _ & _ & _ & E).
  exists message. exact E.
Defined.

Lemma unknown_job_assessment_general_link_witness :
  lookup "UNKNOWN" JOB_DESCRIPTIONS = None
  /\ router_agent (mkState "UNKNOWN" "Bob Smith" "bob@example.com"
                           "ASSESSMENT" GENERIC_TITLE GENERIC_DESCRIPTION
                           "" []) = "assessment"
  /\ exists message,
      orchestrate offline "Bob Smith" "bob@example.com" "ASSESSMENT"
                  "UNKNOWN" false = Ok message
      /\ contains "https://assess.example.com/general" message = true.
Proof.
  split; [reflexivity|]. split; [reflexivity|].
  destruct (unknown_job_assessment_general_link offline "Bob Smith"
              "bob@example.com" "ASSESSMENT" "UNKNOWN" false
              eq_refl eq_refl)
    as (_ & st & message & _ & _ & _ & E & _ & C).
  exists message. split; [exact E | exact C].
Defined.

(** * Further properties of the dispatch pipeline *)

(** ** The dispatch in closed form *)

Section ClosedForm.

Variable w : World.
Variables name email : string.

Lemma initial_state_resolve_job (s job : string) :
  initial_state name email s job
  = Ok (mkState job name email s (title (resolve_job job))
                (description (resolve_job job)) "" []).
Proof.
  unfold initial_state, resolve_job, mem, subscript.
  destruct (lookup job JOB_DESCRIPTIONS); reflexivity.
Qed.

Lemma router_agent_status (st : AgentState) :
  router_agent st
  = if String.eqb (lower (status st)) "assessment"
    then "assessment" else "interview".
Proof. reflexivity. Qed.

(** The final state of a dispatch, route by route. *)
Lemma orchestrate_state_closed (s job : string) (use_claude : bool) :
  orchestrate_state w name email s job use_claude
  = if String.eqb (lower s) "assessment"
    then Ok (assessment_agent w
               (mkState job name email s (title (resolve_job job))
                        (description (resolve_job job)) "" []))
    else interview_agent w
           (mkState job name email s (title (resolve_job job))
                    (description (resolve_job job)) "" [])
           use_claude.
Proof.
  unfold orchestrate_state. rewrite initial_state_resolve_job.
  cbn [bind]. rewrite router_agent_status. cbn [status].
  destruct (String.eqb (lower s) "assessment"); reflexivity.
Qed.

(** The message of a dispatch, route by route. *)
Lemma orchestrate_closed (s job : string) (use_claude : bool) :
  orchestrate w name email s job use_claude
  = if String.eqb (lower s) "assessment"
    then Ok (assessment_message name (title (resolve_job job))
               (get_test_link (title (resolve_job job))))
    else
      jd_snippet <- rag_search job ;;
      prep_tip <- generate_prep_tip w (description (resolve_job job))
                                    use_claude ;;
      Ok (interview_message name (title (resolve_job job))
                            prep_tip jd_snippet).
Proof.
  unfold orchestrate. rewrite orchestrate_state_closed.
  destruct (String.eqb (lower s) "assessment").
  - reflexivity.
  - unfold interview_agent. cbn [job_id job_description].
    destruct (rag_search job); [|reflexivity]. cbn [bind].
    destruct (generate_prep_tip w (description (resolve_job job)) use_claude);
      reflexivity.
Qed.

End ClosedForm.

(** ** Helper facts on routes, tables and templates *)

Section DispatchFacts.

Lemma route_eq_nocase (s : string) :
  String.eqb (lower s) "assessment" = eq_nocase s "assessment".
Proof.
  pose proof (lower_eq_nocase "assessment" eq_refl s) as H.
  destruct (String.eqb (lower s) "assessment") eqn:E.
  - apply String.eqb_eq in E. symmetry. apply H. exact E.
  - apply String.eqb_neq in E.
    destruct (eq_nocase s "assessment"); [|reflexivity].
    exfalso. apply E, H. reflexivity.
Qed.

Lemma resolve_job_known (job : string) (jd : JobPosting) :
  lookup job JOB_DESCRIPTIONS = Some jd -> resolve_job job = jd.
Proof. unfold resolve_job. intros ->. reflexivity. Qed.


(** The catalog's postings, one by one. *)
Lemma catalog_cases (job : string) (jd : JobPosting) :
  lookup job JOB_DESCRIPTIONS = Some jd ->
  In (job, jd) JOB_DESCRIPTIONS.
Proof.
  unfold JOB_DESCRIPTIONS. cbn [lookup].
  repeat match goal with
         | |- context [String.eqb job ?k] =>
             destruct (String.eqb_spec job k) as [->|_]
         end;
    intros E; inversion E; subst; simpl; tauto.
Qed.

Lemma catalog_title_has_link (job : string) (jd : JobPosting) :
  lookup job JOB_DESCRIPTIONS = Some jd ->
  exists link,
    lookup (title jd) TEST_LINKS = Some link
    /\ get_test_link (title jd) = link
    /\ link <> GENERAL_LINK.
Proof.
  intros H. apply catalog_cases in H. simpl in H.
  destruct H as [H|[H|[H|[H|[]]]]]; inversion H; subst;
    eexists; (split; [reflexivity|]); (split; [reflexivity|discriminate]).
Qed.

Lemma greeting_prefix (name rest : string) :
  String.prefix ("Hi " ++ name ++ "!") ("Hi " ++ name ++ "!" ++ rest) = true.
Proof.
  rewrite <- (string_app_assoc name "!" rest).
  rewrite <- (string_app_assoc "Hi " (name ++ "!") rest).
  apply prefix_app.
Qed.

Lemma assessment_message_greeting (name job link : string) :
  String.prefix ("Hi " ++ name ++ "!") (assessment_message name job link)
  = true.
Proof.
  unfold assessment_message. apply greeting_prefix.
Qed.

Lemma interview_message_greeting (name job tip snippet : string) :
  String.prefix ("Hi " ++ name ++ "!")
                (interview_message name job tip snippet) = true.
Proof.
  unfold interview_message. apply greeting_prefix.
Qed.

Lemma prefix_nonempty (p s : string) :
  p <> "" -> String.prefix p s = true -> s <> "".
Proof. destruct p, s; simpl; congruence. Qed.

End DispatchFacts.

(** ** Dispatch as a whole *)

Section Dispatch.

Variable w : World.
Variables name email : string.

Ltac locate := repeat first [ apply contains_here | apply contains_skip ].

(** X1.  A dispatch never raises, whatever the inputs and whatever the
    service does: it returns the message of the final state, and that
    message opens with the greeting of the candidate. *)
Theorem orchestrate_never_raises (s job : string) (use_claude : bool) :
  exists st message,
    orchestrate_state w name email s job use_claude = Ok st
    /\ orchestrate w name email s job use_claude = Ok message
    /\ message = output_message st
    /\ String.prefix ("Hi " ++ name ++ "!") message = true
    /\ message <> "".
Proof.
  rewrite orchestrate_closed, orchestrate_state_closed.
  assert (Hne : "Hi " ++ name ++ "!" <> "") by discriminate.
  destruct (String.eqb (lower s) "assessment").
  - eexists; eexists. split; [reflexivity|]. split; [reflexivity|].
    split; [reflexivity|].
    pose proof (assessment_message_greeting name (title (resolve_job job))
                  (get_test_link (title (resolve_job job)))) as G.
    split; [exact G | exact (prefix_nonempty _ _ Hne G)].
  - match goal with
    | |- context [interview_agent w ?st0 use_claude] =>
        destruct (interview_agent_ok w st0 use_claude)
          as (sn & tip & Hs & Ht & E)
    end.
    cbn [job_id job_description candidate_name job_title] in Hs, Ht, E.
    rewrite E, Hs, Ht. cbn [bind].
    eexists; eexists. split; [reflexivity|]. split; [reflexivity|].
    split; [reflexivity|].
    pose proof (interview_message_greeting name (title (resolve_job job))
                  tip sn) as G.
    split; [exact G | exact (prefix_nonempty _ _ Hne G)].
Qed.

(** X2.  The final state of a dispatch carries the caller's four inputs
    and the resolved posting, and the agent named in its metadata is the
    one the router chooses for that state. *)
Theorem orchestrate_state_records_route (s job : string)
        (use_claude : bool) :
  exists st,
    orchestrate_state w name email s job use_claude = Ok st
    /\ job_id st = job
    /\ candidate_name st = name
    /\ candidate_email st = email
    /\ status st = s
    /\ job_title st = title (resolve_job job)
    /\ job_description st = description (resolve_job job)
    /\ lookup "agent" (metadata st) = Some (router_agent st).
Proof.
  rewrite orchestrate_state_closed.
  destruct (String.eqb (lower s) "assessment") eqn:R.
  - eexists. split; [reflexivity|].
    repeat (split; [reflexivity|]).
    rewrite router_agent_status.
    cbn [assessment_agent set_metadata set_output_message status].
    rewrite R. reflexivity.
  - match goal with
    | |- context [interview_agent w ?st0 use_claude] =>
        destruct (interview_agent_ok w st0 use_claude)
          as (sn & tip & _ & _ & E)
    end.
    rewrite E. eexists. split; [reflexivity|].
    repeat (split; [reflexivity|]).
    rewrite router_agent_status. cbn [status]. rewrite R. reflexivity.
Qed.

(** X3.  For a job id of the catalog the message names the posting's
    title on either route, and on the assessment route it holds the link
    mapped to that title, which is never the generic link. *)
Theorem known_job_title_and_link (s job : string) (jd : JobPosting)
        (use_claude : bool) :
  lookup job JOB_DESCRIPTIONS = Some jd ->
  exists message,
    orchestrate w name email s job use_claude = Ok message
    /\ contains (title jd) message = true
    /\ (eq_nocase s "assessment" = true ->
        exists link,
          lookup (title jd) TEST_LINKS = Some link
          /\ link <> GENERAL_LINK
          /\ contains link message = true).
Proof.
  intros H. rewrite orchestrate_closed, route_eq_nocase.
  rewrite (resolve_job_known job jd H).
  destruct (eq_nocase s "assessment").
  - eexists. split; [reflexivity|]. split.
    + unfold assessment_message. locate.
    + intros _. destruct (catalog_title_has_link job jd H)
        as (link & Hl & Hg & Hn).
      exists link. split; [exact Hl|]. split; [exact Hn|].
      rewrite Hg. unfold assessment_message. locate.
  - destruct (rag_search_ok job) as [sn Hs].
    destruct (generate_prep_tip_ok w (description jd) use_claude)
      as [tip Ht].
    rewrite Hs, Ht. cbn [bind]. eexists. split; [reflexivity|]. split.
    + unfold interview_message. locate.
    + discriminate.
Qed.


(** X5.  On the assessment route nothing of the outside world reaches
    the message: it is the same in every world (environment, service,
    clock), for either value of the flag and for every email address. *)
Theorem assessment_route_ignores_world (w' : World) (email' s job : string)
        (use_claude use_claude' : bool) :
  eq_nocase s "assessment" = true ->
  orchestrate w name email s job use_claude
  = orchestrate w' name email' s job use_claude'
  /\ orchestrate w name email s job use_claude
     = Ok (assessment_message name (title (resolve_job job))
             (get_test_link (title (resolve_job job)))).
Proof.
  intros R. rewrite !orchestrate_closed, route_eq_nocase, R.
  split; reflexivity.
Qed.

(** X6.  The message depends on the status through the route only, and
    neither on the email address nor on the clock: two dispatches with the
    same name, job id and flag, the same environment and service, and
    statuses on the same side of the router return the same result. *)
Theorem message_ignores_email_clock_status (w' : World)
        (email' s s' job : string) (use_claude : bool) :
  environ w' = environ w ->
  messages_create w' = messages_create w ->
  eq_nocase s' "assessment" = eq_nocase s "assessment" ->
  orchestrate w' name email' s' job use_claude
  = orchestrate w name email s job use_claude.
Proof.
  intros He Hm R. rewrite !orchestrate_closed, !route_eq_nocase, R.
  destruct (eq_nocase s "assessment"); [reflexivity|].
  assert (G : forall d, generate_prep_tip w' d use_claude
                        = generate_prep_tip w d use_claude).
  { intros d.
    unfold generate_prep_tip, external_tier_taken, ask_claude, getenv.
    rewrite He, Hm. reflexivity. }
  rewrite G. reflexivity.
Qed.

End Dispatch.

Lemma known_job_title_and_link_witness :
  lookup "J789" JOB_DESCRIPTIONS
  = Some (mkJob "Frontend Developer"
            "Frontend Developer role requiring React, TypeScript, modern CSS frameworks, and experience with responsive design and accessibility standards.")
  /\ exists message,
      orchestrate offline "Carol" "carol@test.com" "Assessment" "J789" false
      = Ok message
      /\ contains "Frontend Developer" message = true.
Proof.
  split; [reflexivity|].
  destruct (known_job_title_and_link offline "Carol" "carol@test.com"
              "Assessment" "J789" _ false eq_refl)
    as (message & E & C & _).
  exists message. split; [exact E | exact C].
Defined.


Lemma assessment_route_ignores_world_witness :
  eq_nocase "ASSESSMENT" "assessment" = true
  /\ orchestrate offline "Alice" "alice@test.com" "ASSESSMENT" "J123" false
     = orchestrate (answering "Know your tools.") "Alice" "a@other.org"
                   "ASSESSMENT" "J123" true.
Proof.
  split; [reflexivity|].
  apply (assessment_route_ignores_world offline "Alice" "alice@test.com"
           (answering "Know your tools.") "a@other.org" "ASSESSMENT" "J123"
           false true eq_refl).
Defined.

Lemma message_ignores_email_clock_status_witness :
  environ offline_later = environ offline
  /\ messages_create offline_later = messages_create offline
  /\ eq_nocase "offer" "assessment" = eq_nocase "Interview" "assessment"
  /\ orchestrate offline_later "Bob" "bob@other.org" "offer" "J456" false
     = orchestrate offline "Bob" "bob@test.com" "Interview" "J456" false.
Proof.
  split; [reflexivity|]. split; [reflexivity|]. split; [reflexivity|].
  apply (message_ignores_email_clock_status offline "Bob" "bob@test.com"
           offline_later "bob@other.org" "Interview" "offer" "J456" false);
    reflexivity.
Defined.

(** ** Keyword matching in the two tools *)

Section KeywordMatching.







(** X9.  The two tools know the same keywords: for a text that is not a
    job id, context retrieval finds no tip exactly when the keyword tier
    of tip generation falls through to its generic message. *)
Theorem tools_match_same_keywords (text : string) :
  lookup text JOB_DESCRIPTIONS = None ->
  (rag_search text = Ok NO_TIPS_FOUND
   <-> scan_keywords KEYWORDS text = GENERIC_TIP).
Proof.
  intros H. apply mem_false_lookup in H. unfold rag_search. rewrite H.
  unfold INTERVIEW_TIPS_DB, KEYWORDS. cbn [search_tips scan_keywords].
  destruct (contains "python" (lower text));
    destruct (contains "fastapi" (lower text));
    destruct (contains "sql" (lower text));
    destruct (contains "react" (lower text));
    destruct (contains "kubernetes" (lower text));
    split; intros E; solve [reflexivity | discriminate E].
Qed.

(** X10.  The two tools rank the keywords differently: on a text that is
    not a job id and holds "fastapi" and "sql" but not "python", context
    retrieval answers with the "fastapi" entry while the keyword tier
    answers with the "sql" entry. *)
Theorem tools_rank_keywords_differently (text : string) :
  lookup text JOB_DESCRIPTIONS = None ->
  contains "python" (lower text) = false ->
  contains "fastapi" (lower text) = true ->
  contains "sql" (lower text) = true ->
  exists fastapi_tip sql_tip,
    lookup "fastapi" INTERVIEW_TIPS_DB = Some fastapi_tip
    /\ lookup "sql" INTERVIEW_TIPS_DB = Some sql_tip
    /\ rag_search text = Ok fastapi_tip
    /\ scan_keywords KEYWORDS text = sql_tip
    /\ fastapi_tip <> sql_tip.
Proof.
  intros H Hp Hf Hs. apply mem_false_lookup in H.
  unfold rag_search. rewrite H.
  unfold INTERVIEW_TIPS_DB, KEYWORDS. cbn [search_tips scan_keywords].
  rewrite Hp, Hf, Hs. eexists; eexists.
  split; [reflexivity|]. split; [reflexivity|].
  split; [reflexivity|]. split; [reflexivity|]. discriminate.
Qed.

End KeywordMatching.



Lemma tools_match_same_keywords_witness :
  lookup "G07A" JOB_DESCRIPTIONS = None
  /\ (rag_search "G07A" = Ok NO_TIPS_FOUND
      <-> scan_keywords KEYWORDS "G07A" = GENERIC_TIP).
Proof.
  split; [reflexivity|].
  apply (tools_match_same_keywords "G07A" eq_refl).
Defined.

Lemma tools_rank_keywords_differently_witness :
  lookup "FastAPI with SQL" JOB_DESCRIPTIONS = None
  /\ contains "python" (lower "FastAPI with SQL") = false
  /\ contains "fastapi" (lower "FastAPI with SQL") = true
  /\ contains "sql" (lower "FastAPI with SQL") = true
  /\ exists fastapi_tip,
      rag_search "FastAPI with SQL" = Ok fastapi_tip
      /\ scan_keywords KEYWORDS "FastAPI with SQL" <> fastapi_tip.
Proof.
  split; [reflexivity|]. split; [reflexivity|].
  split; [reflexivity|]. split; [reflexivity|].
  destruct (tools_rank_keywords_differently "FastAPI with SQL"
              eq_refl eq_refl eq_refl eq_refl)
    as (f & q & _ & _ & Hr & Hs & Hne).
  exists f. split; [exact Hr|]. rewrite Hs. congruence.
Defined.

(** ** Letter case, trimming and sizes *)

Section CaseAndTrim.











(** X14.  A reply without any content block is a failure like the
    others: reading its first block raises [IndexError], which is
    swallowed, and the keyword tier answers. *)
Theorem empty_reply_falls_back (w : World) (d : string) :
  external_tier_taken w true = true ->
  messages_create w (getenv w API_KEY_NAME) (prompt_of d) = Ok [] ->
  ask_claude w d = Raise IndexError
  /\ generate_prep_tip w d true = Ok (scan_keywords KEYWORDS d).
Proof.
  intros X M. unfold generate_prep_tip, ask_claude. rewrite X, M.
  split; reflexivity.
Qed.

Lemma length_append (a b : string) :
  String.length (a ++ b) = String.length a + String.length b.
Proof. induction a as [|c a IH]; simpl; [reflexivity | rewrite IH; reflexivity]. Qed.

(** X15.  The snippet of a known job id has bounded size: its length is
    that of the title plus 5 (colon, blank and marker) plus the length of
    the description capped at 150, so at most the title's length plus
    155. *)
Theorem rag_search_snippet_length (query : string) (jd : JobPosting) :
  lookup query JOB_DESCRIPTIONS = Some jd ->
  exists snippet,
    rag_search query = Ok snippet
    /\ String.length snippet
       = String.length (title jd) + 5
         + Nat.min 150 (String.length (description jd))
    /\ String.length snippet <= String.length (title jd) + 155.
Proof.
  intros H. unfold rag_search, mem, subscript. rewrite H. cbn [bind].
  eexists. split; [reflexivity|].
  rewrite !length_append, take_length.
  change (String.length ": ") with 2. change (String.length "...") with 3.
  split; lia.
Qed.

(** X16.  Whatever the role, known or not, the assessment link is an
    address on the assessment host, hence never empty. *)
Theorem get_test_link_on_host (role : string) :
  String.prefix "https://assess.example.com/" (get_test_link role) = true
  /\ get_test_link role <> "".
Proof.
  unfold get_test_link, get, TEST_LINKS. cbn [lookup].
  repeat match goal with
         | |- context [String.eqb role ?k] => destruct (String.eqb role k)
         end;
    split; solve [reflexivity | discriminate].
Qed.

End CaseAndTrim.




Lemma empty_reply_falls_back_witness :
  external_tier_taken answering_nothing true = true
  /\ generate_prep_tip answering_nothing GENERIC_DESCRIPTION true
     = Ok GENERIC_TIP.
Proof.
  split; [reflexivity|].
  destruct (empty_reply_falls_back answering_nothing GENERIC_DESCRIPTION
              eq_refl eq_refl) as [_ E].
  rewrite E. reflexivity.
Defined.

Lemma rag_search_snippet_length_witness :
  exists snippet,
    rag_search "J101" = Ok snippet /\ String.length snippet = 148.
Proof.
  destruct (rag_search_snippet_length "J101"
              (mkJob "DevOps Engineer"
                 "DevOps Engineer role requiring Kubernetes, CI/CD pipelines, AWS/Azure, Terraform, and strong Linux system administration skills.")
              eq_refl) as (snippet & E & L & _).
  exists snippet. split; [exact E | exact L].
Defined.

(** ** The interview agent *)

Section InterviewAgent.

Ltac locate := repeat first [ apply contains_here | apply contains_skip ].

(** X17.  The interview agent never raises.  Its role context is the
    retrieval on the job id, its tip is generated from the job description,
    its message is the template filled with the candidate name, the job
    title, the tip and the context, and its metadata record the agent, the
    tip and the timestamp. *)
Theorem interview_agent_renders (w : World) (st : AgentState)
        (use_claude : bool) :
  exists jd_snippet prep_tip st',
    rag_search (job_id st) = Ok jd_snippet
    /\ generate_prep_tip w (job_description st) use_claude = Ok prep_tip
    /\ interview_agent w st use_claude = Ok st'
    /\ output_message st'
       = interview_message (candidate_name st) (job_title st)
                           prep_tip jd_snippet
    /\ contains (candidate_name st) (output_message st') = true
    /\ contains (job_title st) (output_message st') = true
    /\ contains prep_tip (output_message st') = true
    /\ contains jd_snippet (output_message st') = true
    /\ metadata st'
       = [ ("agent", "interview");
           ("prep_tip", prep_tip);
           ("timestamp", now_isoformat w) ].
Proof.
  destruct (interview_agent_ok w st use_claude) as (sn & tip & Hs & Ht & E).
  exists sn, tip. eexists.
  split; [exact Hs|]. split; [exact Ht|]. split; [exact E|].
  cbn [output_message metadata]. split; [reflexivity|].
  unfold interview_message.
  split; [locate|]. split; [locate|]. split; [locate|].
  split; [locate | reflexivity].
Qed.

(** X18.  For every posting of the catalog the keyword tier finds a
    keyword: when the external tier is not taken, the tip for the posting's
    description is the corpus entry of a keyword of the list that occurs in
    it, never the generic message. *)
Theorem known_job_tip_from_corpus (w : World) (job : string)
        (jd : JobPosting) (use_claude : bool) :
  lookup job JOB_DESCRIPTIONS = Some jd ->
  external_tier_taken w use_claude = false ->
  exists keyword tip,
    In keyword KEYWORDS
    /\ contains keyword (lower (description jd)) = true
    /\ lookup keyword INTERVIEW_TIPS_DB = Some tip
    /\ generate_prep_tip w (description jd) use_claude = Ok tip
    /\ tip <> GENERIC_TIP.
Proof.
  intros H X. rewrite (generate_prep_tip_fallback w _ use_claude X).
  apply catalog_cases in H. simpl in H.
  destruct H as [H|[H|[H|[H|[]]]]]; inversion H; subst; cbn [description].
  - exists "python". eexists. split; [simpl; tauto|].
    split; [reflexivity|]. split; [reflexivity|].
    split; [reflexivity | discriminate].
  - exists "python". eexists. split; [simpl; tauto|].
    split; [reflexivity|]. split; [reflexivity|].
    split; [reflexivity | discriminate].
  - exists "react". eexists. split; [simpl; tauto|].
    split; [reflexivity|]. split; [reflexivity|].
    split; [reflexivity | discriminate].
  - exists "kubernetes". eexists. split; [simpl; tauto|].
    split; [reflexivity|]. split; [reflexivity|].
    split; [reflexivity | discriminate].
Qed.

End InterviewAgent.

Lemma known_job_tip_from_corpus_witness :
  external_tier_taken offline false = false
  /\ exists tip,
      lookup "kubernetes" INTERVIEW_TIPS_DB = Some tip
      /\ generate_prep_tip offline
           "DevOps Engineer role requiring Kubernetes, CI/CD pipelines, AWS/Azure, Terraform, and strong Linux system administration skills."
           false = Ok tip.
Proof.
  split; [reflexivity|].
  destruct (known_job_tip_from_corpus offline "J101"
              (mkJob "DevOps Engineer"
                 "DevOps Engineer role requiring Kubernetes, CI/CD pipelines, AWS/Azure, Terraform, and strong Linux system administration skills.")
              false eq_refl eq_refl) as (k & tip & _ & _ & _ & E & _).
  exists tip. split; [|exact E].
  simpl in E. inversion E. reflexivity.
Defined.

(** ** The test script *)

Section TestScript.

Ltac locate := repeat first [ apply contains_here | apply contains_skip ].

(** X19.  The title check of the test script succeeds on every list of
    catalog job ids paired with their catalog titles, in every world; in
    particular [test_different_jobs] reports OK for its three jobs. *)
Theorem check_titles_all_ok (w : World) (jobs : list (string * string)) :
  Forall (fun p => exists jd, lookup (fst p) JOB_DESCRIPTIONS = Some jd
                              /\ title jd = snd p) jobs ->
  check_titles w jobs = Ok (map (fun _ => true) jobs).
Proof.
  induction 1 as [|[job expected] jobs (jd & Hj & Ht) _ IH].
  - reflexivity.
  - cbn [check_titles map]. cbn [fst snd] in Hj, Ht.
    rewrite orchestrate_closed, route_eq_nocase.
    rewrite (resolve_job_known job jd Hj), Ht.
    change (eq_nocase "Assessment" "assessment") with true.
    cbv beta iota. cbn [bind]. rewrite IH. cbn [bind].
    do 2 f_equal. unfold assessment_message. locate.
Qed.

End TestScript.

Lemma check_titles_all_ok_witness :
  test_different_jobs offline = Ok [true; true; true].
Proof.
  apply (check_titles_all_ok offline
           [ ("J123", "Python Developer");
             ("J456", "Data Analyst");
             ("J789", "Frontend Developer") ]).
  repeat constructor; eexists; split; reflexivity.
Defined.
